(** * glif_cond: conductance-based generalized leaky integrate-and-fire neuron

    A shallow embedding of [models/glif_cond.h] (NEST simulator): the
    parameter, state, buffer and variable records, the [StateVecElems]
    index enumeration, the inline member functions [get_state_element],
    [Parameters_::n_receptors_], [handles_test_event] (current events and
    data-logging requests) and [set_status], followed by the properties
    proved about them.

    The header only declares [Parameters_::set], [State_::set], the
    [State_] constructor, [get_g_receptor_name], [update] and the spike
    overload of [handles_test_event].  The inline code is stated over
    arbitrary such members (class [OutOfLine]), over an arbitrary
    simulation kernel (class [Kernel]) and over an arbitrary data logger
    (class [Logging]); module [FromSpec] gives the members the behaviour
    the specification describes, and module [Demo] a small kernel and
    neuron on which everything computes.

    Conventions.
    - [double] is IEEE 754 binary64, Rocq's primitive [float].
    - [size_t] values are integers in [Z]; arithmetic on them wraps modulo
      2^64 ([size_t_wrap]).  [nest::port] is a signed [long], also in [Z].
    - A C++ member function that may throw and that mutates the neuron is a
      function [glif_cond -> outcome A * glif_cond]: the second component is
      the object as the caller finds it afterwards, also when the call
      throws.
    - [std::vector::operator[]] outside the vector is undefined behaviour;
      a read is modelled by list lookup and yields [None] there. *)

From Stdlib Require Import ZArith Lia PrimFloat SpecFloat FloatOps.
From stdpp Require Import base option list gmap strings numbers pretty.

Open Scope Z_scope.

(** ** Basic types *)

Definition double : Type := float.

(** [nest::port] and [size_t]. *)
Definition port : Type := Z.

Definition SIZE_T_MODULUS : Z := 2 ^ 64.

Definition size_t_wrap (z : Z) : Z := z mod SIZE_T_MODULUS.

Definition sizeof_double : Z := 8.

(** Exceptions named by the header. *)
Inductive exception : Type :=
  | BadProperty
  | UnknownReceptorType (receptor_type : port) (name : string)
  | KernelException (what : string).

Inductive outcome (A : Type) : Type :=
  | Return (a : A)
  | Throw (e : exception).

Arguments Return {A} a.
Arguments Throw {A} e.

(** A status dictionary maps names to typed values: scalars, vectors of
    doubles and booleans. *)
Record DictionaryDatum : Type := mkDictionaryDatum {
  dict_double : gmap string double;
  dict_vector : gmap string (list double);
  dict_bool : gmap string bool
}.

(** ** struct Parameters_ *)

Record Parameters_ : Type := mkParameters_ {
  G_ : double;                       (* membrane conductance in nS *)
  E_L_ : double;                     (* resting potential in mV *)
  th_inf_ : double;                  (* infinity threshold in mV *)
  C_m_ : double;                     (* capacitance in pF *)
  t_ref_ : double;                   (* refractory time in ms *)
  V_reset_ : double;                 (* membrane voltage following spike *)
  th_spike_add_ : double;
  th_spike_decay_ : double;
  voltage_reset_fraction_ : double;
  voltage_reset_add_ : double;
  th_voltage_index_ : double;
  th_voltage_decay_ : double;
  asc_init_ : list double;
  asc_decay_ : list double;
  asc_amps_ : list double;
  asc_r_ : list double;
  tau_syn_ : list double;            (* synaptic port time constants in ms *)
  E_rev_ : list double;              (* reversal potential in mV *)
  has_connections_ : bool;
  has_theta_spike_ : bool;
  has_asc_ : bool;
  has_theta_voltage_ : bool
}.

(** [Parameters_::n_receptors_]: returns the size of [tau_syn_]. *)
Definition n_receptors_ (p : Parameters_) : Z :=
  Z.of_nat (length (tau_syn_ p)).

(** ** struct State_ *)

Record State_ : Type := mkState_ {
  threshold_ : double;               (* voltage threshold in mV *)
  threshold_spike_ : double;         (* spike component of threshold *)
  threshold_voltage_ : double;       (* voltage component of threshold *)
  ASCurrents_ : list double;         (* after-spike currents in pA *)
  ASCurrents_sum_ : double;
  refractory_steps_ : Z;             (* int: refractory steps remaining *)
  y_ : list double                   (* neuron state *)
}.

(** [enum StateVecElems] and the three size constants of [State_]. *)
Module StateVecElems.
Definition V_M : Z := 0.
Definition I : Z := 1.
Definition ASC_SUM : Z := 2.
Definition TH : Z := 3.
Definition TH_SPK : Z := 4.
Definition TH_VLT : Z := 5.
Definition DG_SYN : Z := 6.
Definition G_SYN : Z := 7.
Definition STATE_VECTOR_MIN_SIZE : Z := 8.

Definition NUMBER_OF_FIXED_STATES_ELEMENTS : Z := 1.           (* V_M *)
Definition NUMBER_OF_RECORDABLES_ELEMENTS : Z := DG_SYN - 1.   (* I, ASC, TH, Th_SPK, TH_VLT *)
Definition NUMBER_OF_STATES_ELEMENTS_PER_RECEPTOR : Z := 2.    (* DG_SYN, G_SYN *)
End StateVecElems.

(** ** struct Variables_ *)

Record Variables_ : Type := mkVariables_ {
  RefractoryCounts_ : Z;
  theta_spike_decay_rate_ : double;
  theta_spike_refractory_decay_rate_ : double;
  theta_voltage_decay_rate_inverse_ : double;
  potential_decay_rate_ : double;
  abpara_ratio_voltage_ : double;
  asc_decay_rates_ : list double;
  asc_stable_coeff_ : list double;
  asc_refractory_decay_rates_ : list double;
  phi : double;
  CondInitialValues_ : list double
}.

(** ** Recordables *)

(** Modelled from the spec: [DataAccessFunctor< glif_cond >] (declared
    outside this header) is the recordable accessor exposing one state
    element; [get_data_access_functor] builds it from a state-element
    index and calling it reads that element with [get_state_element].
    The functor is represented by the index it holds. *)
Record DataAccessFunctor : Type := mkDataAccessFunctor { functor_elem : Z }.

(** Modelled from the spec: the external recordable registry
    ([DynamicRecordablesMap], declared outside this header) is a map from
    recordable name to accessor with a registration ([insert]) and a
    deregistration ([erase]) operation. *)
Abbreviation DynamicRecordablesMap := (gmap string DataAccessFunctor).

(** Modelled from the spec: [DynamicRecordablesMap::insert], the
    registration of an accessor under a name. *)
Definition recordables_insert (n : string) (f : DataAccessFunctor)
    (m : DynamicRecordablesMap) : DynamicRecordablesMap :=
  <[n := f]> m.

(** Modelled from the spec: [DynamicRecordablesMap::erase], the
    deregistration of a name. *)
Definition recordables_erase (n : string)
    (m : DynamicRecordablesMap) : DynamicRecordablesMap :=
  delete n m.

(** ** External collaborators

    Types and operations the header uses and that live in the simulation
    kernel: the [Archiving_Node] base class with its [set_status], the
    types of the data logger and of its requests, the ring buffers, the
    GSL stepper handles, the node name used in exception messages, and
    the conversion of a duration in ms to simulation steps
    ([Time( Time::ms( t ) ).get_steps()]).  A kernel call returns its
    outcome together with the collaborator as the call leaves it. *)
Class Kernel : Type := {
  Archiving_Node : Type;
  Archiving_Node_set_status :
    DictionaryDatum -> Archiving_Node -> outcome unit * Archiving_Node;
  DataLoggingRequest : Type;
  DynamicUniversalDataLogger : Type;
  RingBuffer : Type;
  gsl_odeiv_step : Type;
  gsl_odeiv_control : Type;
  gsl_odeiv_evolve : Type;
  gsl_odeiv_system : Type;
  get_name : string;
  ms_to_steps : double -> Z
}.

(** Member functions of [glif_cond] that the header declares and whose
    bodies are in the implementation file. [Parameters_set] returns the
    shift of the resting potential together with the updated parameters;
    both [set] functions work on a temporary copy and may throw. *)
Class OutOfLine : Type := {
  Parameters_set : DictionaryDatum -> Parameters_ -> outcome (double * Parameters_);
  State_set : DictionaryDatum -> Parameters_ -> double -> State_ -> outcome State_;
  get_g_receptor_name : Z -> string
}.

(** ** struct Buffers_ *)

Record Buffers_ `{Kernel} : Type := mkBuffers_ {
  spikes_ : list RingBuffer;         (* incoming spikes, one buffer per receptor *)
  currents_ : RingBuffer;            (* incoming currents *)
  logger_ : DynamicUniversalDataLogger;
  s_ : gsl_odeiv_step;               (* stepping function *)
  c_ : gsl_odeiv_control;            (* adaptive stepsize control function *)
  e_ : gsl_odeiv_evolve;             (* evolution function *)
  sys_ : gsl_odeiv_system;           (* struct describing system *)
  step_ : double;
  IntegrationStep_ : double;
  I_ : double                        (* input current injected by CurrentEvent *)
}.

(** ** class glif_cond *)

Record glif_cond `{Kernel} : Type := mkglif_cond {
  archiving_node_ : Archiving_Node;  (* base-class subobject *)
  P_ : Parameters_;
  S_ : State_;
  V_ : Variables_;
  B_ : Buffers_;
  recordablesMap_ : DynamicRecordablesMap
}.

Definition set_P_ `{Kernel} (p : Parameters_) (g : glif_cond) : glif_cond :=
  {| archiving_node_ := archiving_node_ g; P_ := p; S_ := S_ g; V_ := V_ g;
     B_ := B_ g; recordablesMap_ := recordablesMap_ g |}.

Definition set_S_ `{Kernel} (s : State_) (g : glif_cond) : glif_cond :=
  {| archiving_node_ := archiving_node_ g; P_ := P_ g; S_ := s; V_ := V_ g;
     B_ := B_ g; recordablesMap_ := recordablesMap_ g |}.

Definition set_recordablesMap_ `{Kernel} (m : DynamicRecordablesMap)
    (g : glif_cond) : glif_cond :=
  {| archiving_node_ := archiving_node_ g; P_ := P_ g; S_ := S_ g; V_ := V_ g;
     B_ := B_ g; recordablesMap_ := m |}.

Definition set_archiving_node_ `{Kernel} (a : Archiving_Node)
    (g : glif_cond) : glif_cond :=
  {| archiving_node_ := a; P_ := P_ g; S_ := S_ g; V_ := V_ g;
     B_ := B_ g; recordablesMap_ := recordablesMap_ g |}.


(** ** Member functions: state passing with exceptions *)

Definition M (St A : Type) : Type := St -> outcome A * St.

Definition ret {St A : Type} (a : A) : M St A := fun s => (Return a, s).


Definition bind {St A B : Type} (m : M St A) (k : A -> M St B) : M St B :=
  fun s =>
    match m s with
    | (Return a, s') => k a s'
    | (Throw e, s') => (Throw e, s')
    end.

Definition gets {St A : Type} (f : St -> A) : M St A := fun s => (Return (f s), s).

Definition modify {St : Type} (f : St -> St) : M St unit := fun s => (Return tt, f s).

(** A call on a local temporary: it may throw, and leaves the object alone. *)
Definition on_temporary {St A : Type} (o : outcome A) : M St A := fun s => (o, s).

Declare Scope member_scope.
Delimit Scope member_scope with member.
Notation "x <- c1 ;; c2" := (bind c1 (fun x => c2))
  (at level 100, c1 at next level, right associativity) : member_scope.
Notation "c1 ;; c2" := (bind c1 (fun _ => c2))
  (at level 100, right associativity) : member_scope.
Open Scope member_scope.

(** [for ( size_t receptor = first; receptor < last; ++receptor ) body]:
    the body runs once for each index of [first, last), in increasing
    order; an exception ends the loop. *)
Fixpoint for_each {St : Type} (receptors : list Z) (body : Z -> M St unit) : M St unit :=
  match receptors with
  | [] => ret tt
  | receptor :: rest => body receptor ;; for_each rest body
  end.

Definition for_range {St : Type} (first last : Z) (body : Z -> M St unit) : M St unit :=
  for_each (seqZ first (last - first)) body.

(** ** glif_cond::get_state_element *)

Definition get_state_element `{Kernel} (g : glif_cond) (elem : Z) : option double :=
  if elem =? StateVecElems.V_M then
    (fun v => (v + E_L_ (P_ g))%float) <$> y_ (S_ g) !! Z.to_nat elem
  else if elem =? StateVecElems.I then
    Some (I_ (B_ g))
  else if elem =? StateVecElems.ASC_SUM then
    Some (ASCurrents_sum_ (S_ g))
  else if elem =? StateVecElems.TH then
    Some (threshold_ (S_ g) + E_L_ (P_ g))%float
  else if elem =? StateVecElems.TH_SPK then
    Some (threshold_spike_ (S_ g))
  else if elem =? StateVecElems.TH_VLT then
    Some (threshold_voltage_ (S_ g))
  else
    y_ (S_ g) !! Z.to_nat (size_t_wrap (elem - StateVecElems.NUMBER_OF_RECORDABLES_ELEMENTS)).

(** [get_data_access_functor( elem )] and what calling the functor yields. *)
Definition get_data_access_functor (elem : Z) : DataAccessFunctor :=
  mkDataAccessFunctor elem.

Definition call_functor `{Kernel} (g : glif_cond) (f : DataAccessFunctor) : option double :=
  get_state_element g (functor_elem f).

(** ** glif_cond::handles_test_event *)




(** ** glif_cond::set_status *)

(** The state-element index registered for a receptor:
    [G_SYN + receptor * NUMBER_OF_STATES_ELEMENTS_PER_RECEPTOR] in [size_t]. *)
Definition receptor_elem (receptor : Z) : Z :=
  size_t_wrap (StateVecElems.G_SYN
     + size_t_wrap (receptor * StateVecElems.NUMBER_OF_STATES_ELEMENTS_PER_RECEPTOR)).

Definition Archiving_Node_set_status_base `{Kernel} (d : DictionaryDatum)
    : M glif_cond unit :=
  fun g =>
    let '(o, a) := Archiving_Node_set_status d (archiving_node_ g) in
    (o, set_archiving_node_ a g).

Definition insert_receptor_recordable `{Kernel} `{OutOfLine} (receptor : Z)
    : M glif_cond unit :=
  let elem := receptor_elem receptor in
  modify (fun g =>
    set_recordablesMap_
      (recordables_insert (get_g_receptor_name receptor)
         (get_data_access_functor elem) (recordablesMap_ g)) g).

Definition erase_receptor_recordable `{Kernel} `{OutOfLine} (receptor : Z)
    : M glif_cond unit :=
  modify (fun g =>
    set_recordablesMap_
      (recordables_erase (get_g_receptor_name receptor) (recordablesMap_ g)) g).

Definition set_status `{Kernel} `{OutOfLine} (d : DictionaryDatum)
    : M glif_cond unit :=
  p <- gets P_ ;;
  r <- on_temporary (Parameters_set d p) ;;
  let '(delta_EL, ptmp) := r in
  s <- gets S_ ;;
  stmp <- on_temporary (State_set d ptmp delta_EL s) ;;
  Archiving_Node_set_status_base d ;;
  n_old <- gets (fun g => n_receptors_ (P_ g)) ;;
  (if n_receptors_ ptmp >? n_old then
     for_range n_old (n_receptors_ ptmp) insert_receptor_recordable
   else if n_receptors_ ptmp <? n_old then
     for_range (n_receptors_ ptmp) n_old erase_receptor_recordable
   else
     ret tt) ;;
  modify (set_P_ ptmp) ;;
  modify (set_S_ stmp).

(** ** Parts of the neuron whose bodies are outside the header

    The definitions of this module follow the specification document and
    the user documentation printed in the header, not code. *)
Module FromSpec.

(** Modelled from the spec: the mechanism check of [Parameters_::set]
    (body outside the header).  The three flags (spike_dependent_threshold,
    after_spike_currents, adapting_threshold) are legal for GLIF models
    1 to 5 as listed in the header's Remarks; any other combination is
    rejected. *)
Definition supported_mechanisms : list (bool * bool * bool) :=
  [ (false, false, false);   (* GLIF Model 1 *)
    (true,  false, false);   (* GLIF Model 2 *)
    (false, true,  false);   (* GLIF Model 3 *)
    (true,  true,  false);   (* GLIF Model 4 *)
    (true,  true,  true) ].  (* GLIF Model 5 *)

(** Modelled from the spec: the flag triple (flag 1, flag 2, flag 3) of a
    parameter set. *)
Definition mechanisms_of (p : Parameters_) : bool * bool * bool :=
  (has_theta_spike_ p, has_asc_ p, has_theta_voltage_ p).

(** Modelled from the spec: the flag combination is one of the five legal
    tuples. *)
Definition mechanisms_supported (p : Parameters_) : bool :=
  bool_decide (mechanisms_of p ∈ supported_mechanisms).

(** Modelled from the spec: a field of a partial update replaces the
    current value when the dictionary names it. *)
Definition updateValue {A : Type} (m : gmap string A) (name : string) (current : A) : A :=
  default current (m !! name).

(** Modelled from the spec: the overlay step of [Parameters_::set]: a
    partial update of any subset of the named fields, laid over the
    current parameter set.  The names are those of the header's
    parameter table. *)
Definition Parameters_overlay (d : DictionaryDatum) (p : Parameters_) : Parameters_ :=
  {| G_ := updateValue (dict_double d) "g" (G_ p);
     E_L_ := updateValue (dict_double d) "E_L" (E_L_ p);
     th_inf_ := updateValue (dict_double d) "V_th" (th_inf_ p);
     C_m_ := updateValue (dict_double d) "C_m" (C_m_ p);
     t_ref_ := updateValue (dict_double d) "t_ref" (t_ref_ p);
     V_reset_ := updateValue (dict_double d) "V_reset" (V_reset_ p);
     th_spike_add_ := updateValue (dict_double d) "th_spike_add" (th_spike_add_ p);
     th_spike_decay_ := updateValue (dict_double d) "th_spike_decay" (th_spike_decay_ p);
     voltage_reset_fraction_ :=
       updateValue (dict_double d) "voltage_reset_fraction" (voltage_reset_fraction_ p);
     voltage_reset_add_ :=
       updateValue (dict_double d) "voltage_reset_add" (voltage_reset_add_ p);
     th_voltage_index_ := updateValue (dict_double d) "th_voltage_index" (th_voltage_index_ p);
     th_voltage_decay_ := updateValue (dict_double d) "th_voltage_decay" (th_voltage_decay_ p);
     asc_init_ := updateValue (dict_vector d) "asc_init" (asc_init_ p);
     asc_decay_ := updateValue (dict_vector d) "asc_decay" (asc_decay_ p);
     asc_amps_ := updateValue (dict_vector d) "asc_amps" (asc_amps_ p);
     asc_r_ := updateValue (dict_vector d) "asc_r" (asc_r_ p);
     tau_syn_ := updateValue (dict_vector d) "tau_syn" (tau_syn_ p);
     E_rev_ := updateValue (dict_vector d) "E_rev" (E_rev_ p);
     has_connections_ := has_connections_ p;
     has_theta_spike_ :=
       updateValue (dict_bool d) "spike_dependent_threshold" (has_theta_spike_ p);
     has_asc_ := updateValue (dict_bool d) "after_spike_currents" (has_asc_ p);
     has_theta_voltage_ :=
       updateValue (dict_bool d) "adapting_threshold" (has_theta_voltage_ p) |}.

(** Modelled from the spec: the four after-spike-current arrays have
    identical length. *)
Definition asc_lengths_agree (p : Parameters_) : bool :=
  (length (asc_init_ p) =? length (asc_decay_ p))%nat
  && (length (asc_decay_ p) =? length (asc_amps_ p))%nat
  && (length (asc_amps_ p) =? length (asc_r_ p))%nat.

(** Modelled from the spec: the two per-receptor arrays have identical
    length. *)
Definition receptor_lengths_agree (p : Parameters_) : bool :=
  (length (tau_syn_ p) =? length (E_rev_ p))%nat.

(** Modelled from the spec: [Parameters_::set] (body outside the
    header).  It builds the candidate by overlay and rejects it if an
    array-length equality is violated, if the flag combination is not one
    of the five legal ones, or if the rounded refractory-step count would
    be negative; otherwise it returns the shift of the resting
    potential. *)
Definition Parameters_set `{Kernel} (d : DictionaryDatum) (p : Parameters_)
    : outcome (double * Parameters_) :=
  let c := Parameters_overlay d p in
  if negb (asc_lengths_agree c) then Throw BadProperty
  else if negb (receptor_lengths_agree c) then Throw BadProperty
  else if negb (mechanisms_supported c) then Throw BadProperty
  else if ms_to_steps (t_ref_ c) <? 0 then Throw BadProperty
  else Return ((E_L_ c - E_L_ p)%float, c).

(** Modelled from the spec: the length of the integrated state vector,
    a fixed prefix followed by two doubles per receptor. *)
Definition state_vector_size (p : Parameters_) : Z :=
  StateVecElems.NUMBER_OF_FIXED_STATES_ELEMENTS
  + StateVecElems.NUMBER_OF_STATES_ELEMENTS_PER_RECEPTOR * n_receptors_ p.

(** Modelled from the spec: the cached sum of the after-spike currents. *)
Definition sum_doubles (l : list double) : double :=
  foldl (fun acc x => (acc + x)%float) 0%float l.

(** Modelled from the spec: the constructor [State_( const Parameters_& )]
    (body outside the header): a vector of receptor-count-dependent
    length at rest (zero relative voltage, zero conductances), the
    after-spike currents at their initial values, the composite threshold
    at its base value, no refractory steps pending. *)
Definition State_new (p : Parameters_) : State_ :=
  {| threshold_ := th_inf_ p;
     threshold_spike_ := 0%float;
     threshold_voltage_ := 0%float;
     ASCurrents_ := asc_init_ p;
     ASCurrents_sum_ := sum_doubles (asc_init_ p);
     refractory_steps_ := 0;
     y_ := replicate (Z.to_nat (state_vector_size p)) 0%float |}.

(** Modelled from the spec: [State_::set] (body outside the header).
    The membrane voltage, stored relative to rest, is re-based by the
    shift of the resting potential (or taken from "V_m", an absolute
    value); the vector is then fitted to the receptor count of the
    candidate parameters: trailing pairs are truncated, new pairs are
    appended at zero. *)
Definition State_set (d : DictionaryDatum) (ptmp : Parameters_) (delta_EL : double)
    (s : State_) : outcome State_ :=
  let rebased :=
    match dict_double d !! "V_m", y_ s with
    | Some v, _ :: body => (v - E_L_ ptmp)%float :: body
    | None, v :: body => (v - delta_EL)%float :: body
    | _, [] => []
    end in
  Return
    {| threshold_ := threshold_ s;
       threshold_spike_ := threshold_spike_ s;
       threshold_voltage_ := threshold_voltage_ s;
       ASCurrents_ := ASCurrents_ s;
       ASCurrents_sum_ := ASCurrents_sum_ s;
       refractory_steps_ := refractory_steps_ s;
       y_ := resize (Z.to_nat (state_vector_size ptmp)) 0%float rebased |}.



(** Modelled from the spec: the out-of-line members as the specification
    describes them, for a given naming of the conductance recordables by
    receptor index. *)
Definition members `{Kernel} (receptor_name : Z -> string) : OutOfLine :=
  Build_OutOfLine Parameters_set State_set receptor_name.

End FromSpec.

(** ** Layout of the state vector

    [y_] holds V_M and then DG_SYN, G_SYN for each receptor (the comment
    on [StateVecElems]).  The position of an element in [y_] is its
    enumeration index less the recordable-only slots that sit between
    V_M and DG_SYN. *)
Definition y_index_DG_SYN (receptor : Z) : Z :=
  StateVecElems.DG_SYN - StateVecElems.NUMBER_OF_RECORDABLES_ELEMENTS
  + receptor * StateVecElems.NUMBER_OF_STATES_ELEMENTS_PER_RECEPTOR.

Definition y_index_G_SYN (receptor : Z) : Z :=
  StateVecElems.G_SYN - StateVecElems.NUMBER_OF_RECORDABLES_ELEMENTS
  + receptor * StateVecElems.NUMBER_OF_STATES_ELEMENTS_PER_RECEPTOR.

(** The registry after the insert loop, respectively the erase loop, of
    [set_status] over the receptors of [first, last). *)
Definition insert_conductance_range `{OutOfLine} (first last : Z)
    (m : DynamicRecordablesMap) : DynamicRecordablesMap :=
  foldl (fun acc receptor =>
           recordables_insert (get_g_receptor_name receptor)
             (get_data_access_functor (receptor_elem receptor)) acc)
        m (seqZ first (last - first)).

Definition erase_conductance_range `{OutOfLine} (first last : Z)
    (m : DynamicRecordablesMap) : DynamicRecordablesMap :=
  foldl (fun acc receptor => recordables_erase (get_g_receptor_name receptor) acc)
        m (seqZ first (last - first)).

Definition update_recordables `{OutOfLine} (n_old n_new : Z)
    (m : DynamicRecordablesMap) : DynamicRecordablesMap :=
  if n_new >? n_old then insert_conductance_range n_old n_new m
  else if n_new <? n_old then erase_conductance_range n_new n_old m
  else m.

(** What [set_status] leaves behind when nothing throws. *)
Definition committed `{Kernel} `{OutOfLine} (ptmp : Parameters_) (stmp : State_)
    (a : Archiving_Node) (g : glif_cond) : glif_cond :=
  {| archiving_node_ := a; P_ := ptmp; S_ := stmp; V_ := V_ g; B_ := B_ g;
     recordablesMap_ :=
       update_recordables (n_receptors_ (P_ g)) (n_receptors_ ptmp)
         (recordablesMap_ g) |}.

(** ** A concrete kernel and neuron, used to run the model *)
Module Demo.

(** Steps of 0.125 ms, truncated. *)
Definition steps_of_ms (t : double) : Z :=
  match Prim2SF (t * 8)%float with
  | S754_finite sign m e => (if sign then -1 else 1) * Z.shiftl (Z.pos m) e
  | _ => 0
  end.

(** The base class keeps nothing. *)
Definition kernel : Kernel :=
  {| Archiving_Node := unit;
     Archiving_Node_set_status := fun _ a => (Return tt, a);
     DataLoggingRequest := unit;
     DynamicUniversalDataLogger := nat;
     RingBuffer := unit;
     gsl_odeiv_step := unit;
     gsl_odeiv_control := unit;
     gsl_odeiv_evolve := unit;
     gsl_odeiv_system := unit;
     get_name := "glif_cond";
     ms_to_steps := steps_of_ms |}.





Definition receptor_name (receptor : Z) : string := "g_" +:+ pretty receptor.

Definition members : OutOfLine := @FromSpec.members kernel receptor_name.

Definition parameters : Parameters_ :=
  {| G_ := 9.5%float; E_L_ := (-78.75)%float; th_inf_ := 27.25%float;
     C_m_ := 58.75%float; t_ref_ := 3.75%float; V_reset_ := 0%float;
     th_spike_add_ := 0.375%float; th_spike_decay_ := 0.0078125%float;
     voltage_reset_fraction_ := 0.25%float; voltage_reset_add_ := 18.5%float;
     th_voltage_index_ := 0.00390625%float; th_voltage_decay_ := 0.09375%float;
     asc_init_ := [0%float; 0%float];
     asc_decay_ := [0.00390625%float; 0.125%float];
     asc_amps_ := [(-9.25)%float; (-198.875)%float];
     asc_r_ := [1%float; 1%float];
     tau_syn_ := [0.25%float; 2%float];
     E_rev_ := [0%float; (-85)%float];
     has_connections_ := false;
     has_theta_spike_ := true; has_asc_ := true; has_theta_voltage_ := true |}.

Definition variables : Variables_ :=
  {| RefractoryCounts_ := 30;
     theta_spike_decay_rate_ := 1%float;
     theta_spike_refractory_decay_rate_ := 1%float;
     theta_voltage_decay_rate_inverse_ := 1%float;
     potential_decay_rate_ := 1%float;
     abpara_ratio_voltage_ := 1%float;
     asc_decay_rates_ := [1%float; 1%float];
     asc_stable_coeff_ := [1%float; 1%float];
     asc_refractory_decay_rates_ := [1%float; 1%float];
     phi := 1%float;
     CondInitialValues_ := [1%float; 1%float] |}.

Definition buffers : @Buffers_ kernel :=
  @mkBuffers_ kernel [tt; tt] tt 0%nat tt tt tt tt 0.125%float 0.125%float 0%float.

(** A neuron with two receptors and their two conductance recordables. *)
Definition neuron : @glif_cond kernel :=
  @mkglif_cond kernel tt parameters (FromSpec.State_new parameters) variables
    buffers (@insert_conductance_range members 0 2 ∅).

Definition empty_dictionary : DictionaryDatum :=
  {| dict_double := ∅; dict_vector := ∅; dict_bool := ∅ |}.

(** Requests a voltage-dependent threshold without the spike component. *)
Definition illegal_mechanisms : DictionaryDatum :=
  {| dict_double := ∅; dict_vector := ∅;
     dict_bool := {[ "spike_dependent_threshold" := false ]} |}.

(** Three receptors instead of two. *)
Definition three_receptors : DictionaryDatum :=
  {| dict_double := ∅;
     dict_vector := {[ "tau_syn" := [0.25%float; 2%float; 5%float];
                       "E_rev" := [0%float; (-85)%float; 0%float] ]};
     dict_bool := ∅ |}.

(** One receptor instead of two. *)
Definition one_receptor : DictionaryDatum :=
  {| dict_double := ∅;
     dict_vector := {[ "tau_syn" := [0.25%float]; "E_rev" := [0%float] ]};
     dict_bool := ∅ |}.

End Demo.

(** ** The registry in step with the receptor count

    Among the names of the conductance recordables, the registry binds
    exactly those of the receptors below [n], each to the accessor of the
    state element of its receptor. *)
Definition conductance_recordables_match `{OutOfLine} (n : Z)
    (m : DynamicRecordablesMap) : Prop :=
  forall r, 0 <= r ->
    m !! get_g_receptor_name r
    = if r <? n then Some (get_data_access_functor (receptor_elem r)) else None.

(** Back to the two receptors of the concrete neuron. *)
Definition Demo_two_receptors : DictionaryDatum :=
  {| dict_double := ∅;
     dict_vector := {[ "tau_syn" := [0.25%float; 2%float];
                       "E_rev" := [0%float; (-85)%float] ]};
     dict_bool := ∅ |}.

(** The concrete neuron after the update to three receptors, and after
    the update back to two. *)
Definition Demo_neuron_three : @glif_cond Demo.kernel :=
  (@set_status Demo.kernel Demo.members Demo.three_receptors Demo.neuron).2.

Definition Demo_neuron_back : @glif_cond Demo.kernel :=
  (@set_status Demo.kernel Demo.members Demo_two_receptors Demo_neuron_three).2.

(** * Properties *)

(** ** The member-function monad *)

Section Member.
Context {St : Type}.

Lemma for_each_modify (f : Z -> St -> St) (receptors : list Z) (s : St) :
  for_each receptors (fun r => modify (f r)) s
  = (Return tt, foldl (fun acc r => f r acc) s receptors).
Proof.
  revert s. induction receptors as [|r rest IH]; intros s; [reflexivity|].
  simpl. unfold bind at 1. unfold modify at 1. apply IH.
Qed.

Lemma bind_throw {A B : Type} (m : M St A) (k : A -> M St B) s e s' :
  m s = (Throw e, s') -> bind m k s = (Throw e, s').
Proof. intros Hm. unfold bind. rewrite Hm. reflexivity. Qed.

Lemma bind_return {A B : Type} (m : M St A) (k : A -> M St B) s a s' :
  m s = (Return a, s') -> bind m k s = k a s'.
Proof. intros Hm. unfold bind. rewrite Hm. reflexivity. Qed.
End Member.

(** ** get_state_element *)

Section Recordables.
Context `{K : Kernel}.

(** C7.  The membrane-voltage and composite-threshold channels report
    absolute values: [get_state_element] returns the stored rest-relative
    value plus [E_L_] ([y_[V_M] + E_L_], [threshold_ + E_L_]), while the
    spike-threshold and voltage-threshold component channels return the
    stored components unshifted. *)
Theorem get_state_element_absolute_values (g : glif_cond) :
  get_state_element g StateVecElems.V_M
    = (fun v => (v + E_L_ (P_ g))%float) <$> y_ (S_ g) !! 0%nat
  /\ (forall v rest, y_ (S_ g) = v :: rest ->
        get_state_element g StateVecElems.V_M = Some (v + E_L_ (P_ g))%float)
  /\ get_state_element g StateVecElems.TH
       = Some (threshold_ (S_ g) + E_L_ (P_ g))%float
  /\ get_state_element g StateVecElems.TH_SPK = Some (threshold_spike_ (S_ g))
  /\ get_state_element g StateVecElems.TH_VLT = Some (threshold_voltage_ (S_ g)).
Proof.
  repeat split; try reflexivity.
  intros v rest Hy. unfold get_state_element. simpl. rewrite Hy. reflexivity.
Qed.
End Recordables.

Lemma get_state_element_absolute_values_witness :
  @get_state_element Demo.kernel Demo.neuron StateVecElems.V_M
  = Some (-78.75)%float.
Proof.
  exact (proj1 (proj2 (@get_state_element_absolute_values Demo.kernel Demo.neuron))
           0%float (replicate 4 0%float) eq_refl).
Defined.

(** ** handles_test_event *)

Section Events.
Context `{K : Kernel} `{L : Logging}.





End Events.

(** ** set_status *)

Section SetStatus.
Context `{K : Kernel} `{O : OutOfLine}.

Lemma set_recordablesMap_id (g : glif_cond) :
  set_recordablesMap_ (recordablesMap_ g) g = g.
Proof. destruct g; reflexivity. Qed.

Lemma foldl_set_recordablesMap_
    (F : Z -> DynamicRecordablesMap -> DynamicRecordablesMap)
    (receptors : list Z) (g : glif_cond) :
  foldl (fun acc r => set_recordablesMap_ (F r (recordablesMap_ acc)) acc) g receptors
  = set_recordablesMap_ (foldl (fun m r => F r m) (recordablesMap_ g) receptors) g.
Proof.
  revert g. induction receptors as [|r rest IH]; intros g; simpl.
  - symmetry. apply set_recordablesMap_id.
  - rewrite IH. reflexivity.
Qed.

Lemma for_range_insert (first last : Z) (g : glif_cond) :
  for_range first last insert_receptor_recordable g
  = (Return tt,
     set_recordablesMap_ (insert_conductance_range first last (recordablesMap_ g)) g).
Proof.
  unfold for_range, insert_receptor_recordable.
  rewrite for_each_modify.
  rewrite (foldl_set_recordablesMap_
             (fun r m => recordables_insert (get_g_receptor_name r)
                           (get_data_access_functor (receptor_elem r)) m)).
  reflexivity.
Qed.

Lemma for_range_erase (first last : Z) (g : glif_cond) :
  for_range first last erase_receptor_recordable g
  = (Return tt,
     set_recordablesMap_ (erase_conductance_range first last (recordablesMap_ g)) g).
Proof.
  unfold for_range, erase_receptor_recordable.
  rewrite for_each_modify.
  rewrite (foldl_set_recordablesMap_
             (fun r m => recordables_erase (get_g_receptor_name r) m)).
  reflexivity.
Qed.

(** [set_status] case by case: the two [set] calls on the temporaries,
    the base-class call, then the registry update and the commit. *)
Lemma set_status_eq (d : DictionaryDatum) (g : glif_cond) :
  set_status d g =
  match Parameters_set d (P_ g) with
  | Throw e => (Throw e, g)
  | Return (delta_EL, ptmp) =>
      match State_set d ptmp delta_EL (S_ g) with
      | Throw e => (Throw e, g)
      | Return stmp =>
          match Archiving_Node_set_status d (archiving_node_ g) with
          | (Throw e, a) => (Throw e, set_archiving_node_ a g)
          | (Return _, a) => (Return tt, committed ptmp stmp a g)
          end
      end
  end.
Proof.
  unfold set_status, bind at 1, gets at 1, bind at 1, on_temporary at 1.
  destruct (Parameters_set d (P_ g)) as [[delta_EL ptmp]|e]; [|reflexivity].
  unfold bind at 1, gets at 1, bind at 1, on_temporary at 1.
  destruct (State_set d ptmp delta_EL (S_ g)) as [stmp|e]; [|reflexivity].
  unfold bind at 1, Archiving_Node_set_status_base at 1.
  destruct (Archiving_Node_set_status d (archiving_node_ g)) as [[[]|e] a];
    [|reflexivity].
  unfold bind at 1, gets at 1. cbn [P_ set_archiving_node_].
  unfold committed, update_recordables.
  destruct (n_receptors_ ptmp >? n_receptors_ (P_ g)).
  - unfold bind at 1. rewrite for_range_insert. reflexivity.
  - destruct (n_receptors_ ptmp <? n_receptors_ (P_ g)).
    + unfold bind at 1. rewrite for_range_erase. reflexivity.
    + reflexivity.
Qed.

Lemma set_status_throws_with_parameters (d : DictionaryDatum) (g : glif_cond)
    (e : exception) :
  Parameters_set d (P_ g) = Throw e -> set_status d g = (Throw e, g).
Proof. intros He. rewrite set_status_eq, He. reflexivity. Qed.

Lemma set_status_commits_temporaries (d : DictionaryDatum) (g g' : glif_cond)
    (r : unit) :
  set_status d g = (Return r, g') ->
  exists delta_EL ptmp stmp,
    Parameters_set d (P_ g) = Return (delta_EL, ptmp)
    /\ State_set d ptmp delta_EL (S_ g) = Return stmp
    /\ P_ g' = ptmp /\ S_ g' = stmp.
Proof.
  rewrite set_status_eq.
  destruct (Parameters_set d (P_ g)) as [[delta_EL ptmp]|e0] eqn:Hp; [|discriminate].
  destruct (State_set d ptmp delta_EL (S_ g)) as [stmp|e0] eqn:Hs; [|discriminate].
  destruct (Archiving_Node_set_status d (archiving_node_ g)) as [[[]|e0] a];
    [|discriminate].
  intros [= _ <-]. exists delta_EL, ptmp, stmp.
  split_and?; [reflexivity|exact Hs|reflexivity|reflexivity].
Qed.

(** C2.  [set_status] is all-or-nothing.  If the [set] call on the
    candidate parameters or on the candidate state throws, the call
    throws and the neuron is exactly as before.  Whenever [set_status]
    throws, [P_], [S_] and the recordables registry are as before.  When
    it returns, both [set] calls had succeeded and [P_] and [S_] are the
    temporaries they produced. *)
Theorem set_status_all_or_nothing (d : DictionaryDatum) (g : glif_cond) :
  (forall e, Parameters_set d (P_ g) = Throw e -> set_status d g = (Throw e, g))
  /\ (forall delta_EL ptmp e,
        Parameters_set d (P_ g) = Return (delta_EL, ptmp) ->
        State_set d ptmp delta_EL (S_ g) = Throw e ->
        set_status d g = (Throw e, g))
  /\ (forall e g',
        set_status d g = (Throw e, g') ->
        P_ g' = P_ g /\ S_ g' = S_ g /\ recordablesMap_ g' = recordablesMap_ g)
  /\ (forall r g',
        set_status d g = (Return r, g') ->
        exists delta_EL ptmp stmp,
          Parameters_set d (P_ g) = Return (delta_EL, ptmp)
          /\ State_set d ptmp delta_EL (S_ g) = Return stmp
          /\ P_ g' = ptmp /\ S_ g' = stmp).
Proof.
  rewrite set_status_eq.
  split; [intros e He; rewrite He; reflexivity|].
  split; [intros delta_EL ptmp e Hp Hs; rewrite Hp, Hs; reflexivity|].
  destruct (Parameters_set d (P_ g)) as [[delta_EL ptmp]|e0] eqn:Hp;
    [|split; intros; [split_and?; congruence|discriminate]].
  destruct (State_set d ptmp delta_EL (S_ g)) as [stmp|e0] eqn:Hs;
    [|split; intros; [split_and?; congruence|discriminate]].
  destruct (Archiving_Node_set_status d (archiving_node_ g)) as [[[]|e0] a].
  - split; [intros; discriminate|].
    intros r g' [= _ <-]. exists delta_EL, ptmp, stmp.
    split_and?; [reflexivity|exact Hs|reflexivity|reflexivity].
  - split; [|intros; discriminate].
    intros e g' [= _ <-]. split_and?; reflexivity.
Qed.
End SetStatus.

(** ** The recordables registry across a change of the receptor count *)

Section Registry.
Context `{O : OutOfLine}.

Lemma insert_conductance_list_other (receptors : list Z)
    (m : DynamicRecordablesMap) (k : string) :
  (forall r, r ∈ receptors -> k <> get_g_receptor_name r) ->
  foldl (fun acc r =>
           recordables_insert (get_g_receptor_name r)
             (get_data_access_functor (receptor_elem r)) acc) m receptors !! k
  = m !! k.
Proof.
  revert m. induction receptors as [|x rest IH]; intros m Hk; [reflexivity|].
  simpl. rewrite IH.
  - unfold recordables_insert. apply lookup_insert_ne.
    intros Heq. apply (Hk x); [left|congruence].
  - intros r Hr. apply Hk. right. exact Hr.
Qed.

Lemma insert_conductance_list_new (receptors : list Z)
    (m : DynamicRecordablesMap) (r : Z) :
  (forall r1 r2, r1 ∈ receptors -> r2 ∈ receptors ->
     get_g_receptor_name r1 = get_g_receptor_name r2 -> r1 = r2) ->
  r ∈ receptors ->
  foldl (fun acc r =>
           recordables_insert (get_g_receptor_name r)
             (get_data_access_functor (receptor_elem r)) acc) m receptors
    !! get_g_receptor_name r
  = Some (get_data_access_functor (receptor_elem r)).
Proof.
  revert m. induction receptors as [|x rest IH]; intros m Hinj Hr.
  - inversion Hr.
  - simpl. destruct (decide (r ∈ rest)) as [Hin|Hout].
    + apply IH; [|exact Hin].
      intros r1 r2 H1 H2. apply Hinj; right; assumption.
    + assert (r = x) as -> by (inversion Hr; subst; [reflexivity|contradiction]).
      rewrite insert_conductance_list_other.
      * unfold recordables_insert. apply lookup_insert_eq.
      * intros r' Hr' Heq. apply Hout.
        rewrite (Hinj x r'); [exact Hr'|left|right; exact Hr'|exact Heq].
Qed.

Lemma erase_conductance_list_lookup (receptors : list Z)
    (m : DynamicRecordablesMap) (k : string) :
  foldl (fun acc r => recordables_erase (get_g_receptor_name r) acc) m receptors !! k
  = if decide (k ∈ get_g_receptor_name <$> receptors) then None else m !! k.
Proof.
  revert m. induction receptors as [|x rest IH]; intros m; [reflexivity|].
  simpl. rewrite IH. unfold recordables_erase.
  destruct (decide (k = get_g_receptor_name x)) as [->|Hne].
  - rewrite lookup_delete_eq.
    rewrite (decide_True (P := _ ∈ _ :: _)) by left.
    destruct (decide _); reflexivity.
  - rewrite lookup_delete_ne by congruence.
    destruct (decide (k ∈ get_g_receptor_name <$> rest)) as [Hin|Hout].
    + rewrite decide_True by (right; exact Hin). reflexivity.
    + rewrite decide_False; [reflexivity|].
      intros Hc. inversion Hc; subst; contradiction.
Qed.

Lemma insert_conductance_range_other (first last : Z)
    (m : DynamicRecordablesMap) (k : string) :
  (forall r, first <= r < last -> k <> get_g_receptor_name r) ->
  insert_conductance_range first last m !! k = m !! k.
Proof.
  intros Hk. apply insert_conductance_list_other.
  intros r Hr. apply elem_of_seqZ in Hr. apply Hk. lia.
Qed.

Lemma insert_conductance_range_new (first last : Z)
    (m : DynamicRecordablesMap) (r : Z) :
  (forall r1 r2, first <= r1 < last -> first <= r2 < last ->
     get_g_receptor_name r1 = get_g_receptor_name r2 -> r1 = r2) ->
  first <= r < last ->
  insert_conductance_range first last m !! get_g_receptor_name r
  = Some (get_data_access_functor (receptor_elem r)).
Proof.
  intros Hinj Hr. apply insert_conductance_list_new.
  - intros r1 r2 H1 H2. apply elem_of_seqZ in H1, H2. apply Hinj; lia.
  - apply elem_of_seqZ. lia.
Qed.

Lemma erase_conductance_range_gone (first last : Z)
    (m : DynamicRecordablesMap) (r : Z) :
  first <= r < last ->
  erase_conductance_range first last m !! get_g_receptor_name r = None.
Proof.
  intros Hr. unfold erase_conductance_range.
  rewrite erase_conductance_list_lookup. rewrite decide_True; [reflexivity|].
  apply list_elem_of_fmap. exists r. split; [reflexivity|].
  apply elem_of_seqZ. lia.
Qed.

Lemma erase_conductance_range_other (first last : Z)
    (m : DynamicRecordablesMap) (k : string) :
  (forall r, first <= r < last -> k <> get_g_receptor_name r) ->
  erase_conductance_range first last m !! k = m !! k.
Proof.
  intros Hk. unfold erase_conductance_range.
  rewrite erase_conductance_list_lookup. rewrite decide_False; [reflexivity|].
  intros Hin. apply list_elem_of_fmap in Hin as (r & -> & Hr).
  apply elem_of_seqZ in Hr. apply (Hk r); [lia|reflexivity].
Qed.
End Registry.

Section Reconfiguration.
Context `{K : Kernel} `{O : OutOfLine}.

Lemma set_status_returns (d : DictionaryDatum) (g g' : glif_cond) (r : unit) :
  set_status d g = (Return r, g') ->
  recordablesMap_ g'
  = update_recordables (n_receptors_ (P_ g)) (n_receptors_ (P_ g'))
      (recordablesMap_ g).
Proof.
  rewrite set_status_eq.
  destruct (Parameters_set d (P_ g)) as [[delta_EL ptmp]|e]; [|discriminate].
  destruct (State_set d ptmp delta_EL (S_ g)) as [stmp|e]; [|discriminate].
  destruct (Archiving_Node_set_status d (archiving_node_ g)) as [[[]|e] a];
    [|discriminate].
  intros [= _ <-]. reflexivity.
Qed.

(** C3.  A successful [set_status] that changes the receptor count from
    n to m.  If m > n, every index of [n, m) gets a recordable under the
    name of that index, bound to the state element computed for that
    index, and every other name, in particular the names of the n
    existing channels, is bound as before.  If m < n, the names of the
    indices of [m, n) are erased and every other name, in particular
    those of the m remaining channels, is bound as before.  If m = n the
    registry is unchanged.  Hence a registry that held exactly the
    conductance channels of the n receptors holds exactly those of the m
    receptors afterwards.  Names are assumed distinct for distinct
    receptor indices. *)
Theorem set_status_updates_recordables (d : DictionaryDatum) (g g' : glif_cond) :
  (forall r1 r2, 0 <= r1 -> 0 <= r2 ->
     get_g_receptor_name r1 = get_g_receptor_name r2 -> r1 = r2) ->
  set_status d g = (Return tt, g') ->
  let n := n_receptors_ (P_ g) in
  let m := n_receptors_ (P_ g') in
  let rm := recordablesMap_ g in
  let rm' := recordablesMap_ g' in
  (n < m ->
     (forall r, n <= r < m ->
        rm' !! get_g_receptor_name r
        = Some (get_data_access_functor (receptor_elem r)))
     /\ (forall r, 0 <= r < n ->
           rm' !! get_g_receptor_name r = rm !! get_g_receptor_name r)
     /\ (forall k, (forall r, n <= r < m -> k <> get_g_receptor_name r) ->
           rm' !! k = rm !! k))
  /\ (m < n ->
        (forall r, m <= r < n -> rm' !! get_g_receptor_name r = None)
        /\ (forall r, 0 <= r < m ->
              rm' !! get_g_receptor_name r = rm !! get_g_receptor_name r)
        /\ (forall k, (forall r, m <= r < n -> k <> get_g_receptor_name r) ->
              rm' !! k = rm !! k))
  /\ (m = n -> rm' = rm)
  /\ ((forall r, 0 <= r ->
         rm !! get_g_receptor_name r
         = if r <? n then Some (get_data_access_functor (receptor_elem r)) else None) ->
      forall r, 0 <= r ->
        rm' !! get_g_receptor_name r
        = if r <? m then Some (get_data_access_functor (receptor_elem r)) else None).
Proof.
  intros Hinj Hset n m rm rm'.
  assert (Hn : 0 <= n) by (unfold n, n_receptors_; lia).
  assert (Hm : 0 <= m) by (unfold m, n_receptors_; lia).
  assert (Hrm : rm' = update_recordables n m rm)
    by (apply (set_status_returns d g g' tt Hset)).
  assert (Hup : n < m ->
     (forall r, n <= r < m ->
        rm' !! get_g_receptor_name r
        = Some (get_data_access_functor (receptor_elem r)))
     /\ (forall k, (forall r, n <= r < m -> k <> get_g_receptor_name r) ->
           rm' !! k = rm !! k)).
  { intros Hlt. rewrite Hrm. unfold update_recordables.
    rewrite Z.gtb_ltb. destruct (Z.ltb_spec n m); [|lia]. split.
    - intros r Hr. apply insert_conductance_range_new; [|exact Hr].
      intros r1 r2 H1 H2. apply Hinj; lia.
    - intros k Hk. apply insert_conductance_range_other. exact Hk. }
  assert (Hdown : m < n ->
     (forall r, m <= r < n -> rm' !! get_g_receptor_name r = None)
     /\ (forall k, (forall r, m <= r < n -> k <> get_g_receptor_name r) ->
           rm' !! k = rm !! k)).
  { intros Hlt. rewrite Hrm. unfold update_recordables.
    rewrite Z.gtb_ltb. destruct (Z.ltb_spec n m); [lia|].
    destruct (Z.ltb_spec m n); [|lia]. split.
    - intros r Hr. apply erase_conductance_range_gone. exact Hr.
    - intros k Hk. apply erase_conductance_range_other. exact Hk. }
  assert (Hsame : m = n -> rm' = rm).
  { intros Heq. rewrite Hrm, Heq. unfold update_recordables.
    rewrite Z.gtb_ltb, Z.ltb_irrefl. reflexivity. }
  assert (Hother : forall lo hi r, 0 <= lo -> 0 <= r -> ~ (lo <= r < hi) ->
            forall r', lo <= r' < hi -> get_g_receptor_name r <> get_g_receptor_name r').
  { intros lo hi r Hlo Hr Hout r' Hr' Heq. apply Hinj in Heq; lia. }
  split_and!.
  - intros Hlt. destruct (Hup Hlt) as [Hnew Hrest]. split_and!.
    + exact Hnew.
    + intros r Hr. apply Hrest. apply (Hother n m r); lia.
    + exact Hrest.
  - intros Hlt. destruct (Hdown Hlt) as [Hgone Hrest]. split_and!.
    + exact Hgone.
    + intros r Hr. apply Hrest. apply (Hother m n r); lia.
    + exact Hrest.
  - exact Hsame.
  - intros Hwf r Hr.
    destruct (Z.lt_trichotomy n m) as [Hlt|[Heq|Hgt]].
    + destruct (Hup Hlt) as [Hnew Hrest].
      destruct (Z.ltb_spec r m) as [Hrm'|Hrm'].
      * destruct (Z.lt_ge_cases r n) as [Hrn|Hrn].
        -- rewrite Hrest by (apply (Hother n m r); lia).
           rewrite Hwf by lia. destruct (Z.ltb_spec r n); [reflexivity|lia].
        -- apply Hnew. lia.
      * rewrite Hrest by (apply (Hother n m r); lia).
        rewrite Hwf by lia. destruct (Z.ltb_spec r n); [lia|reflexivity].
    + rewrite (Hsame (eq_sym Heq)), Hwf by lia. rewrite Heq. reflexivity.
    + destruct (Hdown Hgt) as [Hgone Hrest].
      destruct (Z.ltb_spec r m) as [Hrm'|Hrm'].
      * rewrite Hrest by (apply (Hother m n r); lia).
        rewrite Hwf by lia. destruct (Z.ltb_spec r n); [reflexivity|lia].
      * destruct (Z.lt_ge_cases r n) as [Hrn|Hrn].
        -- apply Hgone. lia.
        -- rewrite Hrest by (apply (Hother m n r); lia).
           rewrite Hwf by lia. destruct (Z.ltb_spec r n); [lia|reflexivity].
Qed.
End Reconfiguration.

(** ** Conductance accessors stay inside the state vector *)

Ltac unfold_elems :=
  unfold y_index_G_SYN, y_index_DG_SYN,
    StateVecElems.NUMBER_OF_RECORDABLES_ELEMENTS,
    StateVecElems.NUMBER_OF_FIXED_STATES_ELEMENTS,
    StateVecElems.NUMBER_OF_STATES_ELEMENTS_PER_RECEPTOR,
    StateVecElems.V_M, StateVecElems.I, StateVecElems.ASC_SUM,
    StateVecElems.TH, StateVecElems.TH_SPK, StateVecElems.TH_VLT,
    StateVecElems.DG_SYN, StateVecElems.G_SYN,
    SIZE_T_MODULUS, sizeof_double in *.

Section Bounds.
Context `{K : Kernel} `{O : OutOfLine}.

Lemma receptor_elem_no_wrap (r : Z) :
  0 <= r -> StateVecElems.G_SYN + 2 * r < SIZE_T_MODULUS ->
  receptor_elem r = StateVecElems.G_SYN + 2 * r.
Proof.
  intros Hr Hbound. unfold receptor_elem, size_t_wrap. unfold_elems.
  rewrite (Z.mod_small (r * 2)) by lia.
  rewrite Z.mod_small by lia. lia.
Qed.

Lemma get_state_element_receptor (g : glif_cond) (r : Z) :
  0 <= r -> StateVecElems.G_SYN + 2 * r < SIZE_T_MODULUS ->
  get_state_element g (StateVecElems.G_SYN + 2 * r)
  = y_ (S_ g) !! Z.to_nat (y_index_G_SYN r).
Proof.
  intros Hr Hbound. unfold get_state_element, size_t_wrap. unfold_elems.
  repeat match goal with
         | |- context [?a =? ?b] => destruct (Z.eqb_spec a b); [lia|]
         end.
  rewrite Z.mod_small by lia. f_equal. lia.
Qed.

(** C10.  For a receptor index r below the receptor count, the accessor
    that [set_status] registers for r holds the state-element index
    G_SYN + 2 r; [get_state_element] maps that index to [y_[2 + 2 r]]
    (the index less the five recordable-only slots), which is the
    position of the conductance of receptor r; in a state vector of
    length 1 + 2 receptor_count this position is inside the vector, so
    the read is defined.  The vector is one that fits in memory: its
    size in bytes is below 2^64. *)
Theorem conductance_accessor_in_bounds (g : glif_cond) (r : Z) :
  0 <= r < n_receptors_ (P_ g) ->
  Z.of_nat (length (y_ (S_ g))) = 1 + 2 * n_receptors_ (P_ g) ->
  sizeof_double * Z.of_nat (length (y_ (S_ g))) < SIZE_T_MODULUS ->
  recordablesMap_ (insert_receptor_recordable r g).2 !! get_g_receptor_name r
    = Some (get_data_access_functor (StateVecElems.G_SYN + 2 * r))
  /\ receptor_elem r = StateVecElems.G_SYN + 2 * r
  /\ StateVecElems.NUMBER_OF_RECORDABLES_ELEMENTS = 5
  /\ StateVecElems.G_SYN + 2 * r - StateVecElems.NUMBER_OF_RECORDABLES_ELEMENTS
     = 2 + 2 * r
  /\ y_index_G_SYN r = 2 + 2 * r
  /\ get_state_element g (StateVecElems.G_SYN + 2 * r)
     = y_ (S_ g) !! Z.to_nat (2 + 2 * r)
  /\ 0 <= 2 + 2 * r < Z.of_nat (length (y_ (S_ g)))
  /\ is_Some (call_functor g (get_data_access_functor (StateVecElems.G_SYN + 2 * r))).
Proof.
  intros Hr Hlen Hsize.
  assert (Hbound : StateVecElems.G_SYN + 2 * r < SIZE_T_MODULUS)
    by (unfold_elems; lia).
  assert (Hidx : y_index_G_SYN r = 2 + 2 * r) by (unfold_elems; lia).
  assert (Hget : get_state_element g (StateVecElems.G_SYN + 2 * r)
                 = y_ (S_ g) !! Z.to_nat (2 + 2 * r))
    by (rewrite get_state_element_receptor, Hidx by lia; reflexivity).
  split_and!.
  - unfold insert_receptor_recordable, modify. cbn [snd recordablesMap_ set_recordablesMap_].
    unfold recordables_insert. rewrite lookup_insert_eq.
    rewrite receptor_elem_no_wrap by lia. reflexivity.
  - apply receptor_elem_no_wrap; lia.
  - reflexivity.
  - unfold_elems. lia.
  - exact Hidx.
  - exact Hget.
  - lia.
  - lia.
  - unfold call_functor. cbn [functor_elem get_data_access_functor]. rewrite Hget.
    apply lookup_lt_is_Some. lia.
Qed.
End Bounds.

(** ** Parameter validation and the size of the state vector *)

Section Validation.
Context `{K : Kernel} (receptor_name : Z -> string).

Lemma mechanisms_supported_spec (p : Parameters_) :
  FromSpec.mechanisms_supported p = true <->
  FromSpec.mechanisms_of p = (false, false, false)
  \/ FromSpec.mechanisms_of p = (true, false, false)
  \/ FromSpec.mechanisms_of p = (false, true, false)
  \/ FromSpec.mechanisms_of p = (true, true, false)
  \/ FromSpec.mechanisms_of p = (true, true, true).
Proof.
  unfold FromSpec.mechanisms_supported, FromSpec.supported_mechanisms.
  rewrite bool_decide_eq_true. rewrite !elem_of_cons, elem_of_nil. tauto.
Qed.

Lemma Parameters_set_rejects_mechanisms (d : DictionaryDatum) (p : Parameters_) :
  FromSpec.mechanisms_supported (FromSpec.Parameters_overlay d p) = false ->
  FromSpec.Parameters_set d p = Throw BadProperty.
Proof.
  intros Hm. unfold FromSpec.Parameters_set. rewrite Hm.
  destruct (FromSpec.asc_lengths_agree _); [|reflexivity].
  destruct (FromSpec.receptor_lengths_agree _); reflexivity.
Qed.

(** C1.  Validation of a parameter update accepts the three mechanism
    flags (spike_dependent_threshold, after_spike_currents,
    adapting_threshold) of the candidate exactly when they are one of
    (F,F,F), (T,F,F), (F,T,F), (T,T,F), (T,T,T).  For any other
    combination [Parameters_::set] throws, so does [set_status], and the
    neuron is left as it was.  For a legal combination the candidate is
    accepted provided the array lengths agree and the refractory step
    count is not negative. *)
Theorem mechanism_validation (d : DictionaryDatum) (g : glif_cond) :
  let c := FromSpec.Parameters_overlay d (P_ g) in
  (FromSpec.mechanisms_supported c = true <->
     (has_theta_spike_ c, has_asc_ c, has_theta_voltage_ c) = (false, false, false)
     \/ (has_theta_spike_ c, has_asc_ c, has_theta_voltage_ c) = (true, false, false)
     \/ (has_theta_spike_ c, has_asc_ c, has_theta_voltage_ c) = (false, true, false)
     \/ (has_theta_spike_ c, has_asc_ c, has_theta_voltage_ c) = (true, true, false)
     \/ (has_theta_spike_ c, has_asc_ c, has_theta_voltage_ c) = (true, true, true))
  /\ (FromSpec.mechanisms_supported c = false ->
        FromSpec.Parameters_set d (P_ g) = Throw BadProperty
        /\ @set_status K (FromSpec.members receptor_name) d g = (Throw BadProperty, g))
  /\ (FromSpec.mechanisms_supported c = true ->
        FromSpec.asc_lengths_agree c = true ->
        FromSpec.receptor_lengths_agree c = true ->
        0 <= ms_to_steps (t_ref_ c) ->
        FromSpec.Parameters_set d (P_ g)
        = Return ((E_L_ c - E_L_ (P_ g))%float, c)).
Proof.
  intros c. split_and!.
  - apply mechanisms_supported_spec.
  - intros Hm. pose proof (Parameters_set_rejects_mechanisms d (P_ g) Hm) as Hthrow.
    split; [exact Hthrow|].
    apply (@set_status_throws_with_parameters K (FromSpec.members receptor_name)).
    exact Hthrow.
  - intros Hm Hasc Hrec Hsteps. unfold FromSpec.Parameters_set. fold c.
    rewrite Hm, Hasc, Hrec. cbn [negb].
    destruct (Z.ltb_spec (ms_to_steps (t_ref_ c)) 0); [lia|reflexivity].
Qed.
End Validation.

Section StateVector.
Context `{K : Kernel} (receptor_name : Z -> string).

Lemma state_vector_size_eq (p : Parameters_) :
  FromSpec.state_vector_size p = 1 + 2 * n_receptors_ p.
Proof. reflexivity. Qed.

Lemma State_set_length (d : DictionaryDatum) (ptmp : Parameters_)
    (delta_EL : double) (s stmp : State_) :
  FromSpec.State_set d ptmp delta_EL s = Return stmp ->
  Z.of_nat (length (y_ stmp)) = 1 + 2 * n_receptors_ ptmp.
Proof.
  unfold FromSpec.State_set. intros [= <-]. cbn [y_].
  rewrite length_resize, state_vector_size_eq. unfold n_receptors_. lia.
Qed.

Lemma Parameters_set_receptor_lengths (d : DictionaryDatum) (p c : Parameters_)
    (delta_EL : double) :
  FromSpec.Parameters_set d p = Return (delta_EL, c) ->
  length (tau_syn_ c) = length (E_rev_ c).
Proof.
  unfold FromSpec.Parameters_set.
  destruct (FromSpec.asc_lengths_agree _); [|discriminate].
  destruct (FromSpec.receptor_lengths_agree _) eqn:Hrec; [|discriminate].
  destruct (FromSpec.mechanisms_supported _); [|discriminate].
  cbn [negb]. destruct (_ <? 0); [discriminate|].
  intros [= _ <-]. apply Nat.eqb_eq. exact Hrec.
Qed.

(** C4.  The receptor count is the length of [tau_syn_].  A state vector
    built for a parameter set has length 1 + 2 receptor_count, and so
    has the state vector after every successful [set_status], whose
    parameter set moreover has as many reversal potentials as time
    constants.  In such a vector the membrane voltage is element 0 and
    receptor r owns the pair of elements 1 + 2 r (DG_SYN) and 2 + 2 r
    (G_SYN); these pairs are inside the vector and every element but the
    first belongs to exactly such a pair. *)
Theorem state_vector_layout (d : DictionaryDatum) (g g' : glif_cond) :
  (forall p, n_receptors_ p = Z.of_nat (length (tau_syn_ p)))
  /\ (forall p,
        Z.of_nat (length (y_ (FromSpec.State_new p))) = 1 + 2 * n_receptors_ p)
  /\ (@set_status K (FromSpec.members receptor_name) d g = (Return tt, g') ->
        n_receptors_ (P_ g') = Z.of_nat (length (E_rev_ (P_ g')))
        /\ Z.of_nat (length (y_ (S_ g'))) = 1 + 2 * n_receptors_ (P_ g'))
  /\ StateVecElems.V_M = 0
  /\ (forall r, 0 <= r ->
        y_index_DG_SYN r = 1 + 2 * r /\ y_index_G_SYN r = 2 + 2 * r)
  /\ (forall n r, 0 <= r < n ->
        0 < y_index_DG_SYN r < y_index_G_SYN r /\ y_index_G_SYN r < 1 + 2 * n)
  /\ (forall n i, 0 < i < 1 + 2 * n ->
        exists r, 0 <= r < n
          /\ (i = y_index_DG_SYN r \/ i = y_index_G_SYN r)
          /\ (forall r', i = y_index_DG_SYN r' \/ i = y_index_G_SYN r' -> r' = r)).
Proof.
  split_and!.
  - reflexivity.
  - intros p. unfold FromSpec.State_new. cbn [y_].
    rewrite length_replicate, state_vector_size_eq. unfold n_receptors_. lia.
  - intros Hset.
    apply (@set_status_commits_temporaries K (FromSpec.members receptor_name))
      in Hset as (delta_EL & ptmp & stmp & Hp & Hs & HP & HS).
    rewrite HP, HS. split.
    + unfold n_receptors_. f_equal.
      apply (Parameters_set_receptor_lengths d (P_ g) ptmp delta_EL Hp).
    + apply (State_set_length d ptmp delta_EL (S_ g) stmp Hs).
  - reflexivity.
  - intros r Hr. unfold_elems. lia.
  - intros n r Hr. unfold_elems. lia.
  - intros n i Hi. exists ((i - 1) / 2).
    assert (Hdiv : i - 1 = 2 * ((i - 1) / 2) + (i - 1) mod 2)
      by (apply Z.div_mod; lia).
    pose proof (Z.mod_pos_bound (i - 1) 2 ltac:(lia)) as Hmod.
    unfold_elems. split_and!; try lia.
Qed.
End StateVector.

(** * The properties on the concrete neuron *)

Lemma Demo_receptor_name_inj (r1 r2 : Z) :
  0 <= r1 -> 0 <= r2 -> Demo.receptor_name r1 = Demo.receptor_name r2 -> r1 = r2.
Proof.
  intros _ _ Heq. unfold Demo.receptor_name in Heq.
  apply (inj (String.append "g_")) in Heq. apply (inj pretty) in Heq. exact Heq.
Qed.

(** An update asking for the flags (F,T,T) is rejected and changes nothing. *)
Lemma mechanism_validation_witness :
  @set_status Demo.kernel Demo.members Demo.illegal_mechanisms Demo.neuron
  = (Throw BadProperty, Demo.neuron).
Proof.
  refine (proj2 (proj1 (proj2
            (@mechanism_validation Demo.kernel Demo.receptor_name
               Demo.illegal_mechanisms Demo.neuron)) _)).
  vm_compute. reflexivity.
Defined.

(** After the rejected update, parameters, state and registry are the old ones. *)
Lemma set_status_all_or_nothing_witness :
  P_ (@set_status Demo.kernel Demo.members Demo.illegal_mechanisms Demo.neuron).2
    = P_ Demo.neuron
  /\ S_ (@set_status Demo.kernel Demo.members Demo.illegal_mechanisms Demo.neuron).2
    = S_ Demo.neuron
  /\ recordablesMap_
       (@set_status Demo.kernel Demo.members Demo.illegal_mechanisms Demo.neuron).2
    = recordablesMap_ Demo.neuron.
Proof.
  refine (proj1 (proj2 (proj2
            (@set_status_all_or_nothing Demo.kernel Demo.members
               Demo.illegal_mechanisms Demo.neuron))) BadProperty _ _).
  vm_compute. reflexivity.
Defined.

(** Going from two to three receptors registers the channel of index 2. *)
Lemma set_status_updates_recordables_witness :
  recordablesMap_
    (@set_status Demo.kernel Demo.members Demo.three_receptors Demo.neuron).2
    !! Demo.receptor_name 2
  = Some (get_data_access_functor (receptor_elem 2)).
Proof.
  refine (proj1 (proj1
            (@set_status_updates_recordables Demo.kernel Demo.members
               Demo.three_receptors Demo.neuron
               (@set_status Demo.kernel Demo.members Demo.three_receptors Demo.neuron).2
               Demo_receptor_name_inj _) _) 2 _).
  - vm_compute. reflexivity.
  - vm_compute. reflexivity.
  - split; vm_compute; congruence.
Defined.

(** With three receptors the state vector has seven elements. *)
Lemma state_vector_layout_witness :
  n_receptors_
    (P_ (@set_status Demo.kernel Demo.members Demo.three_receptors Demo.neuron).2)
  = Z.of_nat (length (E_rev_
      (P_ (@set_status Demo.kernel Demo.members Demo.three_receptors Demo.neuron).2)))
  /\ Z.of_nat (length (y_
      (S_ (@set_status Demo.kernel Demo.members Demo.three_receptors Demo.neuron).2)))
     = 1 + 2 * n_receptors_
         (P_ (@set_status Demo.kernel Demo.members Demo.three_receptors Demo.neuron).2).
Proof.
  refine (proj1 (proj2 (proj2
            (@state_vector_layout Demo.kernel Demo.receptor_name
               Demo.three_receptors Demo.neuron
               (@set_status Demo.kernel Demo.members Demo.three_receptors Demo.neuron).2)))
            _).
  vm_compute. reflexivity.
Defined.



(** The accessor of receptor 1 reads element 4 of the five-element vector. *)
Lemma conductance_accessor_in_bounds_witness :
  @get_state_element Demo.kernel Demo.neuron (StateVecElems.G_SYN + 2 * 1)
  = y_ (S_ Demo.neuron) !! Z.to_nat (2 + 2 * 1).
Proof.
  refine (proj1 (proj2 (proj2 (proj2 (proj2 (proj2
            (@conductance_accessor_in_bounds Demo.kernel Demo.members
               Demo.neuron 1 _ _ _))))))).
  - split; vm_compute; congruence.
  - vm_compute. reflexivity.
  - vm_compute. reflexivity.
Defined.

(** * Further properties of the inline code *)

(** ** Where get_state_element is defined *)

Section StateElements.
Context `{K : Kernel}.

Lemma get_state_element_vector (g : glif_cond) (elem : Z) :
  StateVecElems.DG_SYN <= elem < SIZE_T_MODULUS ->
  get_state_element g elem
  = y_ (S_ g) !! Z.to_nat (elem - StateVecElems.NUMBER_OF_RECORDABLES_ELEMENTS).
Proof.
  intros Helem. unfold get_state_element, size_t_wrap. unfold_elems.
  repeat match goal with
         | |- context [?a =? ?b] => destruct (Z.eqb_spec a b); [lia|]
         end.
  rewrite Z.mod_small by lia. reflexivity.
Qed.

(** X1.  For an index that fits [size_t], [get_state_element] is defined
    exactly in three cases: V_M with a non-empty state vector; one of the
    five recordable-only indices I .. TH_VLT, whatever the vector; an index
    from DG_SYN on whose position, the index less the five recordable-only
    slots, is inside the vector.  In the last case the subtraction does
    not wrap, the value is the vector element at that position, and the
    position is never that of the membrane voltage. *)
Theorem get_state_element_defined_iff (g : glif_cond) (elem : Z) :
  0 <= elem < SIZE_T_MODULUS ->
  (StateVecElems.DG_SYN <= elem ->
     get_state_element g elem
     = y_ (S_ g) !! Z.to_nat (elem - StateVecElems.NUMBER_OF_RECORDABLES_ELEMENTS)
     /\ (0 < Z.to_nat (elem - StateVecElems.NUMBER_OF_RECORDABLES_ELEMENTS))%nat)
  /\ (is_Some (get_state_element g elem) <->
        (elem = StateVecElems.V_M /\ y_ (S_ g) <> [])
        \/ StateVecElems.I <= elem <= StateVecElems.TH_VLT
        \/ (StateVecElems.DG_SYN <= elem
            /\ elem - StateVecElems.NUMBER_OF_RECORDABLES_ELEMENTS
               < Z.of_nat (length (y_ (S_ g))))).
Proof.
  intros Helem. split.
  - intros Hdg. split; [apply get_state_element_vector; lia|].
    unfold_elems. lia.
  - destruct (Z.lt_ge_cases elem StateVecElems.DG_SYN) as [Hfixed|Hvec].
    + assert (Hcases : elem = 0 \/ elem = 1 \/ elem = 2 \/ elem = 3
                       \/ elem = 4 \/ elem = 5) by (unfold_elems; lia).
      destruct Hcases as [->|[->|[->|[->|[->| ->]]]]];
        unfold get_state_element; unfold_elems; cbn [Z.eqb Pos.eqb];
        try (split; [intros _; right; left; lia|intros _; eexists; reflexivity]).
      cbn [Z.to_nat]. destruct (y_ (S_ g)) as [|v rest]; cbn.
      * split; [intros [x Hx]; discriminate|].
        intros [[_ Hne]|[H|[H _]]]; [contradiction|lia|lia].
      * split; [intros _; left; split; [reflexivity|discriminate]|].
        intros _. eexists. reflexivity.
    + rewrite get_state_element_vector by lia. rewrite lookup_lt_is_Some.
      unfold_elems. split.
      * intros Hlt. right. right. lia.
      * intros [[H _]|[H|[_ H]]]; lia.
Qed.

(** X2.  In a state vector of length 1 + 2 receptor_count, the accessor
    of the conductance of receptor r is defined exactly when r is below the
    receptor count: an accessor kept for a receptor that no longer exists
    reads outside the vector. *)
Theorem conductance_accessor_defined_iff (g : glif_cond) (r : Z) :
  0 <= r ->
  StateVecElems.G_SYN + 2 * r < SIZE_T_MODULUS ->
  Z.of_nat (length (y_ (S_ g))) = 1 + 2 * n_receptors_ (P_ g) ->
  is_Some (call_functor g (get_data_access_functor (receptor_elem r)))
  <-> r < n_receptors_ (P_ g).
Proof.
  intros Hr Hbound Hlen. unfold call_functor.
  cbn [functor_elem get_data_access_functor].
  rewrite receptor_elem_no_wrap by assumption.
  rewrite get_state_element_vector by (unfold_elems; lia).
  rewrite lookup_lt_is_Some. unfold_elems. lia.
Qed.

(** X3.  The conductance recordable of a receptor depends on the state
    vector alone: two neurons with the same [y_] give the same reading,
    whatever their resting potential, input current and thresholds.  The
    state element registered for a receptor lies beyond the recordable-only
    indices, is not the DG_SYN element of any receptor, and differs from
    the element of every other receptor. *)
Theorem conductance_accessor_reads_only_y (g1 g2 : glif_cond) (r1 r2 : Z) :
  0 <= r1 -> StateVecElems.G_SYN + 2 * r1 < SIZE_T_MODULUS ->
  0 <= r2 -> StateVecElems.G_SYN + 2 * r2 < SIZE_T_MODULUS ->
  (y_ (S_ g1) = y_ (S_ g2) ->
     get_state_element g1 (receptor_elem r1) = get_state_element g2 (receptor_elem r1))
  /\ StateVecElems.TH_VLT < receptor_elem r1
  /\ receptor_elem r1
     <> StateVecElems.DG_SYN + r2 * StateVecElems.NUMBER_OF_STATES_ELEMENTS_PER_RECEPTOR
  /\ (receptor_elem r1 = receptor_elem r2 -> r1 = r2).
Proof.
  intros Hr1 Hb1 Hr2 Hb2.
  rewrite (receptor_elem_no_wrap r1), (receptor_elem_no_wrap r2) by assumption.
  split_and!.
  - intros Hy. rewrite !get_state_element_vector by (unfold_elems; lia).
    rewrite Hy. reflexivity.
  - unfold_elems. lia.
  - unfold_elems. lia.
  - lia.
Qed.
End StateElements.

(** ** What set_status leaves alone *)

Section Frame.
Context `{K : Kernel} `{O : OutOfLine}.

(** X4.  Whatever its outcome, [set_status] changes neither the cached
    variables [V_] nor the buffers [B_]: a parameter update alone never
    recomputes the coefficients nor clears pending input.  The base-class
    subobject is either untouched (a [set] call on a temporary threw) or
    as the base-class [set_status] left it, also when that call threw. *)
Theorem set_status_keeps_variables_and_buffers (d : DictionaryDatum)
    (g g' : glif_cond) (o : outcome unit) :
  set_status d g = (o, g') ->
  V_ g' = V_ g
  /\ B_ g' = B_ g
  /\ (archiving_node_ g' = archiving_node_ g
      \/ archiving_node_ g' = (Archiving_Node_set_status d (archiving_node_ g)).2).
Proof.
  rewrite set_status_eq.
  destruct (Parameters_set d (P_ g)) as [[delta_EL ptmp]|e];
    [|intros [= _ <-]; split_and!; [reflexivity|reflexivity|left; reflexivity]].
  destruct (State_set d ptmp delta_EL (S_ g)) as [stmp|e];
    [|intros [= _ <-]; split_and!; [reflexivity|reflexivity|left; reflexivity]].
  destruct (Archiving_Node_set_status d (archiving_node_ g)) as [[[]|e] a];
    intros [= _ <-]; split_and!; try reflexivity; right; reflexivity.
Qed.
End Frame.

(** ** Size of the registry and round trips of the receptor count *)

Section RegistrySize.
Context `{O : OutOfLine}.

Lemma insert_conductance_list_size (receptors : list Z) (m : DynamicRecordablesMap) :
  NoDup (get_g_receptor_name <$> receptors) ->
  (forall r, r ∈ receptors -> m !! get_g_receptor_name r = None) ->
  size (foldl (fun acc r =>
                 recordables_insert (get_g_receptor_name r)
                   (get_data_access_functor (receptor_elem r)) acc) m receptors)
  = (size m + length receptors)%nat.
Proof.
  revert m. induction receptors as [|x rest IH]; intros m Hnd Hfresh; simpl.
  - lia.
  - rewrite fmap_cons in Hnd. apply NoDup_cons in Hnd as [Hx Hnd].
    rewrite IH.
    + unfold recordables_insert. rewrite map_size_insert_None; [lia|].
      apply Hfresh. left.
    + exact Hnd.
    + intros r Hr. unfold recordables_insert. rewrite lookup_insert_ne.
      * apply Hfresh. right. exact Hr.
      * intros Heq. apply Hx. rewrite Heq. apply list_elem_of_fmap.
        exists r. split; [reflexivity|exact Hr].
Qed.

Lemma erase_conductance_list_size (receptors : list Z) (m : DynamicRecordablesMap) :
  NoDup (get_g_receptor_name <$> receptors) ->
  (forall r, r ∈ receptors -> is_Some (m !! get_g_receptor_name r)) ->
  (size (foldl (fun acc r => recordables_erase (get_g_receptor_name r) acc) m receptors)
   + length receptors)%nat
  = size m.
Proof.
  revert m. induction receptors as [|x rest IH]; intros m Hnd Hbound; simpl.
  - lia.
  - rewrite fmap_cons in Hnd. apply NoDup_cons in Hnd as [Hx Hnd].
    assert (Hsize : size (recordables_erase (get_g_receptor_name x) m) = pred (size m)).
    { unfold recordables_erase. apply map_size_delete_Some. apply Hbound. left. }
    assert (Hpos : (0 < size m)%nat).
    { enough (size m <> 0%nat) by lia.
      apply (map_size_ne_0_lookup_2 m (get_g_receptor_name x)).
      apply Hbound. left. }
    enough ((size (foldl (fun acc r => recordables_erase (get_g_receptor_name r) acc)
                     (recordables_erase (get_g_receptor_name x) m) rest)
             + length rest)%nat = pred (size m)) by lia.
    rewrite <- Hsize. apply IH; [exact Hnd|]. intros r Hr. unfold recordables_erase. rewrite lookup_delete_ne.
    + apply Hbound. right. exact Hr.
    + intros Heq. apply Hx. rewrite Heq. apply list_elem_of_fmap.
      exists r. split; [reflexivity|exact Hr].
Qed.

Lemma NoDup_receptor_names (first len : Z) :
  0 <= first ->
  (forall r1 r2, 0 <= r1 -> 0 <= r2 ->
     get_g_receptor_name r1 = get_g_receptor_name r2 -> r1 = r2) ->
  NoDup (get_g_receptor_name <$> seqZ first len).
Proof.
  intros Hfirst Hinj. apply NoDup_fmap_2_strong; [|apply NoDup_seqZ].
  intros r1 r2 H1 H2. apply elem_of_seqZ in H1, H2. apply Hinj; lia.
Qed.
End RegistrySize.

Section RoundTrip.
Context `{K : Kernel} `{O : OutOfLine}.

Lemma update_recordables_match (n m : Z) (rm : DynamicRecordablesMap) :
  (forall r1 r2, 0 <= r1 -> 0 <= r2 ->
     get_g_receptor_name r1 = get_g_receptor_name r2 -> r1 = r2) ->
  0 <= n -> 0 <= m ->
  conductance_recordables_match n rm ->
  conductance_recordables_match m (update_recordables n m rm).
Proof.
  intros Hinj Hn Hm Hwf r Hr. unfold update_recordables. rewrite Z.gtb_ltb.
  assert (Hother : forall lo hi, 0 <= lo -> ~ (lo <= r < hi) ->
            forall r', lo <= r' < hi -> get_g_receptor_name r <> get_g_receptor_name r').
  { intros lo hi Hlo Hout r' Hr' Heq. apply Hinj in Heq; lia. }
  destruct (Z.ltb_spec n m) as [Hup|Hnup];
    [|destruct (Z.ltb_spec m n) as [Hdown|Hndown]].
  - destruct (Z.ltb_spec r m) as [Hlt|Hge].
    + destruct (Z.lt_ge_cases r n) as [Hold|Hnew].
      * rewrite insert_conductance_range_other by (apply (Hother n m); lia).
        rewrite Hwf by lia. destruct (Z.ltb_spec r n); [reflexivity|lia].
      * apply insert_conductance_range_new; [|lia].
        intros r1 r2 H1 H2. apply Hinj; lia.
    + rewrite insert_conductance_range_other by (apply (Hother n m); lia).
      rewrite Hwf by lia. destruct (Z.ltb_spec r n); [lia|reflexivity].
  - destruct (Z.ltb_spec r m) as [Hlt|Hge].
    + rewrite erase_conductance_range_other by (apply (Hother m n); lia).
      rewrite Hwf by lia. destruct (Z.ltb_spec r n); [reflexivity|lia].
    + destruct (Z.lt_ge_cases r n) as [Hold|Hnew].
      * apply erase_conductance_range_gone. lia.
      * rewrite erase_conductance_range_other by (apply (Hother m n); lia).
        rewrite Hwf by lia. destruct (Z.ltb_spec r n); [lia|reflexivity].
  - replace m with n by lia. apply Hwf. exact Hr.
Qed.

Lemma update_recordables_round_trip (n m : Z) (rm : DynamicRecordablesMap) :
  (forall r1 r2, 0 <= r1 -> 0 <= r2 ->
     get_g_receptor_name r1 = get_g_receptor_name r2 -> r1 = r2) ->
  0 <= n -> 0 <= m ->
  conductance_recordables_match n rm ->
  update_recordables m n (update_recordables n m rm) = rm.
Proof.
  intros Hinj Hn Hm Hwf. unfold update_recordables. rewrite !Z.gtb_ltb.
  destruct (Z.ltb_spec n m) as [Hup|Hnup];
    [|destruct (Z.ltb_spec m n) as [Hdown|Hndown]].
  - destruct (Z.ltb_spec m n); [lia|]. apply map_eq. intros k.
    unfold erase_conductance_range. rewrite erase_conductance_list_lookup.
    destruct (decide (k ∈ get_g_receptor_name <$> seqZ n (m - n))) as [Hin|Hout].
    + apply list_elem_of_fmap in Hin as (r & -> & Hr). apply elem_of_seqZ in Hr.
      rewrite Hwf by lia. destruct (Z.ltb_spec r n); [lia|reflexivity].
    + apply insert_conductance_range_other. intros r Hr ->. apply Hout.
      apply list_elem_of_fmap. exists r. split; [reflexivity|].
      apply elem_of_seqZ. lia.
  - apply map_eq. intros k.
    destruct (decide (k ∈ get_g_receptor_name <$> seqZ m (n - m))) as [Hin|Hout].
    + apply list_elem_of_fmap in Hin as (r & -> & Hr). apply elem_of_seqZ in Hr.
      rewrite insert_conductance_range_new;
        [|intros r1 r2 H1 H2; apply Hinj; lia|lia].
      rewrite Hwf by lia. destruct (Z.ltb_spec r n); [reflexivity|lia].
    + assert (Hk : forall r, m <= r < n -> k <> get_g_receptor_name r).
      { intros r Hr ->. apply Hout. apply list_elem_of_fmap.
        exists r. split; [reflexivity|]. apply elem_of_seqZ. lia. }
      rewrite insert_conductance_range_other by exact Hk.
      apply erase_conductance_range_other. exact Hk.
  - destruct (Z.ltb_spec m n); [lia|]. destruct (Z.ltb_spec n m); [lia|]. reflexivity.
Qed.

(** X5.  A successful [set_status] changes the number of registered
    recordables by exactly the change of the receptor count: it grows by
    m - n when none of the names of the new receptors was registered, and
    shrinks by n - m when all the names of the removed receptors were.
    Names are assumed distinct for distinct receptor indices. *)
Theorem set_status_registry_size (d : DictionaryDatum) (g g' : glif_cond) :
  (forall r1 r2, 0 <= r1 -> 0 <= r2 ->
     get_g_receptor_name r1 = get_g_receptor_name r2 -> r1 = r2) ->
  set_status d g = (Return tt, g') ->
  let n := n_receptors_ (P_ g) in
  let m := n_receptors_ (P_ g') in
  let rm := recordablesMap_ g in
  let rm' := recordablesMap_ g' in
  (n <= m ->
     (forall r, n <= r < m -> rm !! get_g_receptor_name r = None) ->
     Z.of_nat (size rm') = Z.of_nat (size rm) + (m - n))
  /\ (m <= n ->
        (forall r, m <= r < n -> is_Some (rm !! get_g_receptor_name r)) ->
        Z.of_nat (size rm') + (n - m) = Z.of_nat (size rm)).
Proof.
  intros Hinj Hset n m rm rm'.
  assert (Hn : 0 <= n) by (unfold n, n_receptors_; lia).
  assert (Hm : 0 <= m) by (unfold m, n_receptors_; lia).
  assert (Hrm : rm' = update_recordables n m rm)
    by (apply (set_status_returns d g g' tt Hset)).
  rewrite Hrm. unfold update_recordables. rewrite Z.gtb_ltb.
  destruct (Z.ltb_spec n m) as [Hup|Hnup];
    [|destruct (Z.ltb_spec m n) as [Hdown|Hndown]]; split; intros Hle Hnames;
    try lia.
  - unfold insert_conductance_range. rewrite insert_conductance_list_size.
    + rewrite length_seqZ. lia.
    + apply NoDup_receptor_names; assumption.
    + intros r Hr. apply elem_of_seqZ in Hr. apply Hnames. lia.
  - pose proof (erase_conductance_list_size (seqZ m (n - m)) rm
                  (NoDup_receptor_names m (n - m) Hm Hinj)) as Hsize.
    unfold erase_conductance_range. rewrite length_seqZ in Hsize.
    rewrite <- Hsize; [lia|].
    intros r Hr. apply elem_of_seqZ in Hr. apply Hnames. lia.
Qed.

(** X6.  Changing the receptor count and changing it back restores the
    registry: after two successful [set_status] calls, the second of which
    returns to the receptor count of the start, the registry is the one
    of the start, provided it was in step with the receptor count then.
    Names are assumed distinct for distinct receptor indices. *)
Theorem set_status_round_trip (d1 d2 : DictionaryDatum) (g g1 g2 : glif_cond) :
  (forall r1 r2, 0 <= r1 -> 0 <= r2 ->
     get_g_receptor_name r1 = get_g_receptor_name r2 -> r1 = r2) ->
  conductance_recordables_match (n_receptors_ (P_ g)) (recordablesMap_ g) ->
  set_status d1 g = (Return tt, g1) ->
  set_status d2 g1 = (Return tt, g2) ->
  n_receptors_ (P_ g2) = n_receptors_ (P_ g) ->
  recordablesMap_ g2 = recordablesMap_ g.
Proof.
  intros Hinj Hwf Hset1 Hset2 Hback.
  rewrite (set_status_returns d2 g1 g2 tt Hset2), Hback.
  rewrite (set_status_returns d1 g g1 tt Hset1).
  apply update_recordables_round_trip; [exact Hinj| | |exact Hwf];
    unfold n_receptors_; lia.
Qed.

(** X7.  After a successful [set_status] on a neuron whose registry was
    in step with its receptor count, every conductance recordable still
    registered belongs to a receptor of the new parameter set, and, if the
    committed state vector has the length 1 + 2 receptor_count of the new
    parameter set, reading it is defined: no registered conductance
    accessor refers to a receptor that is gone or reads outside the
    vector. *)
Theorem set_status_accessors_defined (d : DictionaryDatum) (g g' : glif_cond) :
  (forall r1 r2, 0 <= r1 -> 0 <= r2 ->
     get_g_receptor_name r1 = get_g_receptor_name r2 -> r1 = r2) ->
  conductance_recordables_match (n_receptors_ (P_ g)) (recordablesMap_ g) ->
  set_status d g = (Return tt, g') ->
  Z.of_nat (length (y_ (S_ g'))) = 1 + 2 * n_receptors_ (P_ g') ->
  sizeof_double * Z.of_nat (length (y_ (S_ g'))) < SIZE_T_MODULUS ->
  forall r f, 0 <= r ->
    recordablesMap_ g' !! get_g_receptor_name r = Some f ->
    r < n_receptors_ (P_ g')
    /\ f = get_data_access_functor (receptor_elem r)
    /\ is_Some (call_functor g' f).
Proof.
  intros Hinj Hwf Hset Hlen Hfit r f Hr Hf.
  assert (Hwf' : conductance_recordables_match (n_receptors_ (P_ g'))
                   (recordablesMap_ g')).
  { rewrite (set_status_returns d g g' tt Hset).
    apply update_recordables_match; [exact Hinj| | |exact Hwf];
      unfold n_receptors_; lia. }
  rewrite (Hwf' r Hr) in Hf.
  destruct (Z.ltb_spec r (n_receptors_ (P_ g'))) as [Hlt|Hge]; [|discriminate].
  injection Hf as <-. split_and!; [exact Hlt|reflexivity|].
  unfold call_functor. cbn [functor_elem get_data_access_functor].
  assert (Hbound : StateVecElems.G_SYN + 2 * r < SIZE_T_MODULUS)
    by (unfold_elems; lia).
  rewrite receptor_elem_no_wrap by (lia || exact Hbound).
  rewrite get_state_element_receptor by (lia || exact Hbound).
  apply lookup_lt_is_Some. unfold_elems. lia.
Qed.
End RoundTrip.


(** * The further properties on the concrete neuron *)

Lemma Demo_registry_match :
  @conductance_recordables_match Demo.members 2 (recordablesMap_ Demo.neuron).
Proof.
  change (recordablesMap_ Demo.neuron)
    with (@update_recordables Demo.members 0 2 ∅).
  apply (@update_recordables_match Demo.members);
    [exact Demo_receptor_name_inj|lia|lia|].
  intros r Hr. rewrite lookup_empty. destruct (Z.ltb_spec r 0); [lia|reflexivity].
Qed.

Lemma Demo_set_status_three :
  @set_status Demo.kernel Demo.members Demo.three_receptors Demo.neuron
  = (Return tt, Demo_neuron_three).
Proof. vm_compute. reflexivity. Qed.

Lemma Demo_set_status_back :
  @set_status Demo.kernel Demo.members Demo_two_receptors Demo_neuron_three
  = (Return tt, Demo_neuron_back).
Proof. vm_compute. reflexivity. Qed.

(** Index 8, the DG_SYN element of receptor 1, reads element 3 of [y_]. *)
Lemma get_state_element_defined_iff_witness :
  @get_state_element Demo.kernel Demo.neuron 8
  = y_ (S_ Demo.neuron) !! Z.to_nat (8 - StateVecElems.NUMBER_OF_RECORDABLES_ELEMENTS)
  /\ (0 < Z.to_nat (8 - StateVecElems.NUMBER_OF_RECORDABLES_ELEMENTS))%nat.
Proof.
  refine (proj1 (@get_state_element_defined_iff Demo.kernel Demo.neuron 8 _) _).
  - split; vm_compute; congruence.
  - vm_compute. congruence.
Defined.

(** With two receptors the accessor of index 2 is outside the vector. *)
Lemma conductance_accessor_defined_iff_witness :
  is_Some (@call_functor Demo.kernel Demo.neuron
             (get_data_access_functor (receptor_elem 2)))
  <-> 2 < n_receptors_ (P_ Demo.neuron).
Proof.
  refine (@conductance_accessor_defined_iff Demo.kernel Demo.neuron 2 _ _ _).
  - vm_compute. congruence.
  - vm_compute. reflexivity.
  - vm_compute. reflexivity.
Defined.

(** Receptors 0 and 1 of the concrete neuron are registered with elements 7 and 9. *)
Lemma conductance_accessor_reads_only_y_witness :
  StateVecElems.TH_VLT < receptor_elem 0
  /\ receptor_elem 0
     <> StateVecElems.DG_SYN + 1 * StateVecElems.NUMBER_OF_STATES_ELEMENTS_PER_RECEPTOR
  /\ (receptor_elem 0 = receptor_elem 1 -> 0 = 1).
Proof.
  refine (proj2 (@conductance_accessor_reads_only_y Demo.kernel
                   Demo.neuron Demo.neuron 0 1 _ _ _ _)).
  - vm_compute. congruence.
  - vm_compute. reflexivity.
  - vm_compute. congruence.
  - vm_compute. reflexivity.
Defined.

(** The update to three receptors keeps variables and buffers. *)
Lemma set_status_keeps_variables_and_buffers_witness :
  V_ Demo_neuron_three = V_ Demo.neuron
  /\ B_ Demo_neuron_three = B_ Demo.neuron
  /\ (archiving_node_ Demo_neuron_three = archiving_node_ Demo.neuron
      \/ archiving_node_ Demo_neuron_three
         = (@Archiving_Node_set_status Demo.kernel Demo.three_receptors
              (archiving_node_ Demo.neuron)).2).
Proof.
  exact (@set_status_keeps_variables_and_buffers Demo.kernel Demo.members
           Demo.three_receptors Demo.neuron Demo_neuron_three (Return tt)
           Demo_set_status_three).
Defined.

(** The update to three receptors adds one recordable. *)
Lemma set_status_registry_size_witness :
  Z.of_nat (size (recordablesMap_ Demo_neuron_three))
  = Z.of_nat (size (recordablesMap_ Demo.neuron))
    + (n_receptors_ (P_ Demo_neuron_three) - n_receptors_ (P_ Demo.neuron)).
Proof.
  refine (proj1 (@set_status_registry_size Demo.kernel Demo.members
                   Demo.three_receptors Demo.neuron Demo_neuron_three
                   Demo_receptor_name_inj Demo_set_status_three) _ _).
  - vm_compute. congruence.
  - intros r [Hlo _]. assert (Hr : 2 <= r) by exact Hlo.
    rewrite (Demo_registry_match r) by lia.
    destruct (Z.ltb_spec r 2) as [Hlt|Hge]; [lia|reflexivity].
Defined.

(** Two receptors, then three, then two again: the registry of the start. *)
Lemma set_status_round_trip_witness :
  recordablesMap_ Demo_neuron_back = recordablesMap_ Demo.neuron.
Proof.
  refine (@set_status_round_trip Demo.kernel Demo.members
            Demo.three_receptors Demo_two_receptors
            Demo.neuron Demo_neuron_three Demo_neuron_back
            Demo_receptor_name_inj Demo_registry_match
            Demo_set_status_three Demo_set_status_back _).
  vm_compute. reflexivity.
Defined.

(** After the update to three receptors the new channel can be read. *)
Lemma set_status_accessors_defined_witness :
  2 < n_receptors_ (P_ Demo_neuron_three)
  /\ get_data_access_functor (receptor_elem 2)
     = get_data_access_functor (receptor_elem 2)
  /\ is_Some (@call_functor Demo.kernel Demo_neuron_three
                (get_data_access_functor (receptor_elem 2))).
Proof.
  refine (@set_status_accessors_defined Demo.kernel Demo.members
            Demo.three_receptors Demo.neuron Demo_neuron_three
            Demo_receptor_name_inj Demo_registry_match Demo_set_status_three
            _ _ 2 (get_data_access_functor (receptor_elem 2)) _ _).
  - vm_compute. reflexivity.
  - vm_compute. reflexivity.
  - vm_compute. congruence.
  - vm_compute. reflexivity.
Defined.

(** ** Recordables that are not conductances *)

Section OtherRecordables.
Context `{K : Kernel} `{O : OutOfLine}.

Lemma update_recordables_other (n m : Z) (rm : DynamicRecordablesMap) (k : string) :
  0 <= n -> 0 <= m ->
  (forall r, 0 <= r -> k <> get_g_receptor_name r) ->
  update_recordables n m rm !! k = rm !! k.
Proof.
  intros Hn Hm Hk. unfold update_recordables.
  destruct (m >? n); [|destruct (m <? n)].
  - apply insert_conductance_range_other. intros r Hr. apply Hk. lia.
  - apply erase_conductance_range_other. intros r Hr. apply Hk. lia.
  - reflexivity.
Qed.

(** X9.  Whatever its outcome and whatever the change of the receptor
    count, [set_status] leaves every recordable alone whose name is not
    the name of a conductance channel: the channels of the membrane
    voltage, the current and the thresholds are never erased or rebound
    by a reconfiguration. *)
Theorem set_status_keeps_other_recordables (d : DictionaryDatum)
    (g g' : glif_cond) (o : outcome unit) (k : string) :
  set_status d g = (o, g') ->
  (forall r, 0 <= r -> k <> get_g_receptor_name r) ->
  recordablesMap_ g' !! k = recordablesMap_ g !! k.
Proof.
  rewrite set_status_eq. intros Hset Hk.
  destruct (Parameters_set d (P_ g)) as [[delta_EL ptmp]|e];
    [|injection Hset as _ <-; reflexivity].
  destruct (State_set d ptmp delta_EL (S_ g)) as [stmp|e];
    [|injection Hset as _ <-; reflexivity].
  destruct (Archiving_Node_set_status d (archiving_node_ g)) as [[[]|e] a];
    injection Hset as _ <-; [|reflexivity].
  cbn [recordablesMap_ committed].
  apply update_recordables_other; [unfold n_receptors_; lia ..|exact Hk].
Qed.
End OtherRecordables.

(** A recordable named V_m survives the update to three receptors. *)
Lemma set_status_keeps_other_recordables_witness :
  recordablesMap_ Demo_neuron_three !! "V_m" = recordablesMap_ Demo.neuron !! "V_m".
Proof.
  refine (@set_status_keeps_other_recordables Demo.kernel Demo.members
            Demo.three_receptors Demo.neuron Demo_neuron_three (Return tt) "V_m"
            Demo_set_status_three _).
  intros r _ Heq. discriminate Heq.
Defined.
